(** * jira-connector: the client of index.js, embedded in Rocq

    The development follows [src/index.js]: the constructor [JiraClient],
    which validates a configuration object and fills in [this], and the two
    prototype methods [buildURL] and [makeRequest].

    JavaScript values are embedded as the inductive [value]; objects are
    finite maps from property names to values.  A string is represented by
    the bytes of its UTF-8 encoding, so ASCII literals read as in the source. *)

From Stdlib Require Import ZArith String Ascii List DecimalString.
From stdpp Require Import gmap strings.

Set Warnings "-register-all".

(* ===================================================================== *)
(** ** JavaScript values *)
(* ===================================================================== *)

Module JS.

(** The values a configuration can hold.  Numbers are the integer-valued
    ones and [NaN]; a plain object is the map of its own properties. *)
Inductive value : Type :=
  | VUndefined
  | VNull
  | VBool (b : bool)
  | VNum (n : Z)
  | VNaN
  | VStr (s : string)
  | VObj (o : gmap string value).

(** ToBoolean: [undefined], [null], [false], [0], [NaN] and the empty
    string are falsy, everything else (every object included) is truthy. *)
Definition truthy (v : value) : bool :=
  match v with
  | VUndefined | VNull | VNaN => false
  | VBool b => b
  | VNum n => negb (n =? 0)%Z
  | VStr s => negb (String.eqb s "")
  | VObj _ => true
  end.

(** ToString, as used by [+] on a string operand.  It is the JavaScript
    operation on [undefined], [null], booleans, [NaN], strings and the safe
    integers (magnitude at most 2^53 - 1), which print in decimal.  Larger
    numbers, which JavaScript prints from the digits of the double (1e21 as
    ["1e+21"]), and objects, whose own [toString] or [valueOf] decide, are
    outside that range: the statements below that print a value restrict
    it with [plainPort]. *)
Definition ToString (v : value) : string :=
  match v with
  | VUndefined => "undefined"
  | VNull => "null"
  | VBool true => "true"
  | VBool false => "false"
  | VNum n => NilZero.string_of_int (Z.to_int n)
  | VNaN => "NaN"
  | VStr s => s
  | VObj _ => "[object Object]"
  end.

(** What a piece of code can throw: [new Error(msg)] with a message of
    type [M], or one of the built-in errors. *)
Inductive exn (M : Type) : Type :=
  | Error (msg : M)
  | TypeError
  | URIError.
Arguments Error {M} msg.
Arguments TypeError {M}.
Arguments URIError {M}.

(** Completion of a call: a returned value or a thrown exception. *)
Inductive outcome (M A : Type) : Type :=
  | Return (a : A)
  | Throw (e : exn M).
Arguments Return {M A} a.
Arguments Throw {M A} e.

#[export] Instance outcome_ret {M} : MRet (outcome M) := fun _ a => Return a.
#[export] Instance outcome_bind {M} : MBind (outcome M) := fun _ _ k c =>
  match c with
  | Return a => k a
  | Throw e => Throw e
  end.

(** [o.k] on an object: the own property, [undefined] when there is none.
    None of the property names this program reads lives on a prototype. *)
Definition get (o : gmap string value) (k : string) : value :=
  default VUndefined (o !! k).

(** [v.k] on an arbitrary value: a TypeError on [undefined] and [null],
    [undefined] on the other primitives (neither ["length"] nor an index
    is ever read here). *)
Definition member {M} (v : value) (k : string) : outcome M value :=
  match v with
  | VObj o => Return (get o k)
  | VUndefined | VNull => Throw TypeError
  | _ => Return VUndefined
  end.

(** [v.k = x] in strict mode: the object with [k] set; a TypeError on a
    primitive. *)
Definition assign {M} (v : value) (k : string) (x : value) : outcome M value :=
  match v with
  | VObj o => Return (VObj (<[k := x]> o))
  | _ => Throw TypeError
  end.

End JS.
Import JS.

(* ===================================================================== *)
(** ** The library functions [buildURL] calls *)
(* ===================================================================== *)

(** Node's legacy [url.format(urlObject)] ([Url.prototype.format] of
    lib/url.js), for the objects [buildURL] passes: [protocol], [hostname],
    [port] and [pathname] are read; [auth], [host], [query], [search],
    [hash] and [slashes] are absent from such an object. *)
Module Url.

(** [protocol] names that are written with [//]. *)
Definition slashedProtocol : list string :=
  [ "http"; "http:"; "https"; "https:"; "ftp"; "ftp:"; "gopher"; "gopher:";
    "file"; "file:"; "ws"; "ws:"; "wss"; "wss:" ].

Definition has (table : list string) (s : string) : bool :=
  existsb (String.eqb s) table.

Fixpoint includes (c : ascii) (s : string) : bool :=
  match s with
  | EmptyString => false
  | String d s' => Ascii.eqb d c || includes c s'
  end.

Fixpoint lastChar (s : string) : option ascii :=
  match s with
  | EmptyString => None
  | String c EmptyString => Some c
  | String _ s' => lastChar s'
  end.

Definition firstChar (s : string) : option ascii :=
  match s with
  | EmptyString => None
  | String c _ => Some c
  end.

Definition is_char (c : ascii) (o : option ascii) : bool :=
  match o with
  | Some d => Ascii.eqb d c
  | None => false
  end.

(** [hostname] is already of the form [[...]]. *)
Definition isIpv6Hostname (hostname : string) : bool :=
  is_char "[" (firstChar hostname) && is_char "]" (lastChar hostname).

(** [x || ''] for a property that the code then uses as a string: the
    string methods and [+] coerce a truthy value that is not a string with
    ToString.  (The test for a final colon reads the first character of
    such a value instead of the last; the printed form of a boolean, a
    number or an object has no colon at either place.) *)
Definition orEmpty (v : value) : string :=
  if truthy v then ToString v else "".

(** The loop over [pathname] that writes [#] as [%23] and [?] as [%3F]. *)
Definition escapeChar (c : ascii) : string :=
  if Ascii.eqb c "#" then "%23"
  else if Ascii.eqb c "?" then "%3F"
  else String c "".

Fixpoint escapePathname (pathname : string) : string :=
  match pathname with
  | EmptyString => ""
  | String c rest => escapeChar c +:+ escapePathname rest
  end.

Definition startsWithFile (protocol : string) : bool :=
  match protocol with
  | String "f" (String "i" (String "l" (String "e" _))) => true
  | _ => false
  end.

Definition format {M} (urlObject : gmap string value) : outcome M string :=
  let protocol := orEmpty (get urlObject "protocol") in
  let pathname := orEmpty (get urlObject "pathname") in
  let host :=
    if truthy (get urlObject "hostname") then
      let hostname := orEmpty (get urlObject "hostname") in
      let host :=
        if includes ":" hostname && negb (isIpv6Hostname hostname)
        then "[" +:+ hostname +:+ "]"
        else hostname in
      if truthy (get urlObject "port")
      then host +:+ ":" +:+ ToString (get urlObject "port")
      else host
    else "" in
  let protocol :=
    if negb (String.eqb protocol "") && negb (is_char ":" (lastChar protocol))
    then protocol +:+ ":" else protocol in
  let pathname := escapePathname pathname in
  let '(host, pathname) :=
    if has slashedProtocol protocol then
      if negb (String.eqb host "") then
        ("//" +:+ host,
         if negb (String.eqb pathname "") && negb (is_char "/" (firstChar pathname))
         then "/" +:+ pathname else pathname)
      else if startsWithFile protocol then ("//", pathname)
      else (host, pathname)
    else (host, pathname) in
  Return (protocol +:+ host +:+ pathname).

End Url.

(** The global [decodeURIComponent]: the [Decode] operation of ECMAScript
    (15.1.3) with an empty reserved set.  On the UTF-8 representation of
    strings a decoded multi-byte sequence is its octets themselves, once
    they are checked to encode a code point. *)
Module Uri.

Definition hexDigit (c : ascii) : option N :=
  let n := N_of_ascii c in
  if (48 <=? n)%N && (n <=? 57)%N then Some (n - 48)%N
  else if (65 <=? n)%N && (n <=? 70)%N then Some (n - 55)%N
  else if (97 <=? n)%N && (n <=? 102)%N then Some (n - 87)%N
  else None.

(** The 8-bit value written by two hexadecimal digits. *)
Definition ParseHexOctet (h1 h2 : ascii) : option N :=
  match hexDigit h1 with
  | None => None
  | Some a =>
      match hexDigit h2 with
      | None => None
      | Some b => Some (16 * a + b)%N
      end
  end.

(** The smallest [n] such that [(B << n) & 0x80] is [0]. *)
Fixpoint smallestShift (fuel n : nat) (B : N) : nat :=
  match fuel with
  | O => n
  | S fuel' =>
      if (N.land (N.shiftl B (N.of_nat n)) 128 =? 0)%N then n
      else smallestShift fuel' (S n) B
  end.

Definition leadingOnes (B : N) : nat := smallestShift 8 0 B.

Definition isContinuation (B : N) : bool :=
  (N.land B 192 =? 128)%N.

(** The UTF-8 transformation of [n] octets into a code point. *)
Definition codePoint (Octets : list N) : N :=
  match Octets with
  | [b0; b1] => N.lor (N.shiftl (N.land b0 31) 6) (N.land b1 63)
  | [b0; b1; b2] =>
      N.lor (N.shiftl (N.land b0 15) 12)
            (N.lor (N.shiftl (N.land b1 63) 6) (N.land b2 63))
  | [b0; b1; b2; b3] =>
      N.lor (N.shiftl (N.land b0 7) 18)
            (N.lor (N.shiftl (N.land b1 63) 12)
                   (N.lor (N.shiftl (N.land b2 63) 6) (N.land b3 63)))
  | _ => 0
  end%N.

(** [Octets] is the (shortest) UTF-8 encoding of a code point that is not
    a surrogate and not above U+10FFFF. *)
Definition validUtf8 (Octets : list N) : bool :=
  let V := codePoint Octets in
  match length Octets with
  | 2 => (128 <=? V)%N
  | 3 => (2048 <=? V)%N && negb ((55296 <=? V)%N && (V <=? 57343)%N)
  | 4 => (65536 <=? V)%N && (V <=? 1114111)%N
  | _ => false
  end.

Definition stringOfOctets (Octets : list N) : string :=
  string_of_list_ascii (map ascii_of_N Octets).

(** State between two escapes: [None] outside a multi-byte sequence,
    otherwise the octets read so far and how many are still to come. *)
Definition pending : Type := option (list N * nat).

(** One escape [%XX] of value [B]: the text it contributes and the next
    state, or [None] where Decode throws. *)
Definition escape (st : pending) (B : N) : option (string * pending) :=
  match st with
  | None =>
      match leadingOnes B with
      | 0 => Some (stringOfOctets [B], None)
      | 1 => None
      | 2 => Some ("", Some ([B], 1))
      | 3 => Some ("", Some ([B], 2))
      | 4 => Some ("", Some ([B], 3))
      | _ => None
      end
  | Some (Octets, j) =>
      if isContinuation B then
        let Octets := Octets ++ [B] in
        match j with
        | 0 => None
        | 1 => if validUtf8 Octets then Some (stringOfOctets Octets, None)
               else None
        | S j' => Some ("", Some (Octets, j'))
        end
      else None
  end.

Fixpoint Decode {M} (st : pending) (str : string) : outcome M string :=
  match str with
  | EmptyString =>
      match st with
      | None => Return ""
      | Some _ => Throw URIError
      end
  | String C tail =>
      if Ascii.eqb C "%" then
        match tail with
        | String h1 (String h2 rest) =>
            match ParseHexOctet h1 h2 with
            | None => Throw URIError
            | Some B =>
                match escape st B with
                | None => Throw URIError
                | Some (text, st') =>
                    R ← Decode st' rest;
                    Return (text +:+ R)
                end
            end
        | _ => Throw URIError
        end
      else
        match st with
        | None => R ← Decode None tail; Return (String C R)
        | Some _ => Throw URIError
        end
  end.

Definition decodeURIComponent {M} (encodedURIComponent : string) : outcome M string :=
  Decode None encodedURIComponent.

End Uri.

(* ===================================================================== *)
(** ** index.js *)
(* ===================================================================== *)

(** Modelled from the spec: [./lib/error] is not among the sources.  The
    spec calls its messages distinct and stable, one per missing field or
    invalid mode, so a message is identified by the name of the constant
    the source reads from [errorStrings]. *)
Inductive errorStrings : Type :=
  | NO_HOST_ERROR
  | NO_AUTHENTICATION_ERROR
  | NO_CONSUMER_KEY_ERROR
  | NO_PRIVATE_KEY_ERROR
  | NO_OAUTH_TOKEN_ERROR
  | NO_OAUTH_TOKEN_SECRET_ERROR
  | NO_USERNAME_ERROR
  | NO_PASSWORD_ERROR
  | INVALID_AUTHENTICATION_PROPERTY_ERROR.

Abbreviation completion := (outcome errorStrings).

(** Modelled from the spec: [./api/issue] is not among the sources.  The
    spec has the sub-resource constructed with a back-reference to the
    client and nothing else; the reference is kept as the client's
    properties at the time of the call. *)
Definition issue (jiraClient : gmap string value) : completion value :=
  Return (VObj {[ "jiraClient" := VObj jiraClient ]}).

(** [new JiraClient(config)]: the properties of [this] when the constructor
    returns, or what it throws.  [this.oauthConfig] is the very object
    [config.oauth], so the assignment of [signature_method] is an update of
    that object. *)
Definition JiraClient (config : gmap string value) : completion (gmap string value) :=
  let this : gmap string value := ∅ in
  if negb (truthy (get config "host")) then Throw (Error NO_HOST_ERROR) else
  let this := <["host" := get config "host"]> this in
  let this := <["protocol" := if truthy (get config "protocol")
                              then get config "protocol" else VStr "https"]> this in
  let this := <["port" := get config "port"]> this in
  let this := <["version" := VNum 2]> this in
  if negb (truthy (get config "oauth")) && negb (truthy (get config "basic_auth"))
  then Throw (Error NO_AUTHENTICATION_ERROR) else
  this ←
    (if truthy (get config "oauth") then
       consumer_key ← member (get config "oauth") "consumer_key";
       if negb (truthy consumer_key) then Throw (Error NO_CONSUMER_KEY_ERROR) else
       private_key ← member (get config "oauth") "private_key";
       if negb (truthy private_key) then Throw (Error NO_PRIVATE_KEY_ERROR) else
       token ← member (get config "oauth") "token";
       if negb (truthy token) then Throw (Error NO_OAUTH_TOKEN_ERROR) else
       token_secret ← member (get config "oauth") "token_secret";
       if negb (truthy token_secret) then Throw (Error NO_OAUTH_TOKEN_SECRET_ERROR) else
       let this := <["oauthConfig" := get config "oauth"]> this in
       oauthConfig ← assign (get this "oauthConfig") "signature_method" (VStr "RSA-SHA1");
       Return (<["oauthConfig" := oauthConfig]> this)
     else if truthy (get config "basic_auth") then
       username ← member (get config "basic_auth") "username";
       if negb (truthy username) then Throw (Error NO_USERNAME_ERROR) else
       password ← member (get config "basic_auth") "password";
       if negb (truthy password) then Throw (Error NO_PASSWORD_ERROR) else
       Return (<["basic_auth" := VObj {[ "user" := username; "pass" := password ]}]> this)
     else Throw (Error INVALID_AUTHENTICATION_PROPERTY_ERROR));
  sub ← issue this;
  Return (<["issue" := sub]> this).

(** [this.buildURL(path)]. *)
Definition buildURL (this : gmap string value) (path : string) : completion string :=
  let apiBasePath := "rest/api/" in
  let version := get this "version" in
  requestUrl ← Url.format {[ "protocol" := get this "protocol";
                             "hostname" := get this "host";
                             "port" := get this "port";
                             "pathname" := VStr (apiBasePath +:+ ToString version +:+ path) ]};
  Uri.decodeURIComponent requestUrl.

(** What [makeRequest] does to the outside, in order: a call of the
    caller's [callback] with an error, and the call [request(options,
    callback)] that hands the request to the transport. *)
Inductive event : Type :=
  | Callback (err : errorStrings)
  | Request (options : gmap string value).

(** [this.makeRequest(options, callback)]: the events of the call.  The
    caller's [options] object is updated in place, so the transport sees the
    updated object.  [callback] is taken to return normally: only the last
    branch calls it, and a callback that throws there, or is no function,
    ends the call before the request; such a callback is outside this
    model, and nothing is stated here about that branch beyond the calls
    it makes when the callback returns. *)
Definition makeRequest (this options : gmap string value) : list event :=
  let '(options, trace) :=
    if truthy (get this "oauthConfig") then
      (<["oauth" := get this "oauthConfig"]> options, [])
    else if truthy (get this "basic_auth") then
      (<["auth" := get this "basic_auth"]> options, [])
    else
      (options, [Callback NO_AUTHENTICATION_ERROR]) in
  trace ++ [Request options].

(* ===================================================================== *)
(** ** Vocabulary of the statements *)
(* ===================================================================== *)

(** The property [k] of a value that is known not to be [undefined] or
    [null]: what [member] returns there. *)
Definition field (v : value) (k : string) : value :=
  match v with
  | VObj o => get o k
  | _ => VUndefined
  end.

(** The required OAuth fields, in the order in which the construction
    contract lists them, each with the error of its absence. *)
Definition oauthFields : list (string * errorStrings) :=
  [ ("consumer_key", NO_CONSUMER_KEY_ERROR);
    ("private_key", NO_PRIVATE_KEY_ERROR);
    ("token", NO_OAUTH_TOKEN_ERROR);
    ("token_secret", NO_OAUTH_TOKEN_SECRET_ERROR) ].

(** The errors that the checks of the constructor name, in their order. *)
Definition constructionErrors : list errorStrings :=
  [ NO_HOST_ERROR; NO_AUTHENTICATION_ERROR;
    NO_CONSUMER_KEY_ERROR; NO_PRIVATE_KEY_ERROR;
    NO_OAUTH_TOKEN_ERROR; NO_OAUTH_TOKEN_SECRET_ERROR;
    NO_USERNAME_ERROR; NO_PASSWORD_ERROR ].

(** The required basic-auth fields, in the order of the contract. *)
Definition basicAuthFields : list (string * errorStrings) :=
  [ ("username", NO_USERNAME_ERROR);
    ("password", NO_PASSWORD_ERROR) ].

(** The error of the first field of [fields] that [credentials] lacks. *)
Fixpoint firstMissing (fields : list (string * errorStrings)) (credentials : value)
  : option errorStrings :=
  match fields with
  | [] => None
  | (k, e) :: rest =>
      if truthy (field credentials k) then firstMissing rest credentials
      else Some e
  end.

(** [this] after the assignments that precede the authentication checks. *)
Definition connection (config : gmap string value) : gmap string value :=
  <["version" := VNum 2]>
    (<["port" := get config "port"]>
       (<["protocol" := if truthy (get config "protocol")
                        then get config "protocol" else VStr "https"]>
          (<["host" := get config "host"]> ∅))).

(** The client that a configuration of the OAuth mode constructs. *)
Definition oauthClient (config o : gmap string value) : gmap string value :=
  let this :=
    <["oauthConfig" := VObj (<["signature_method" := VStr "RSA-SHA1"]> o)]>
      (<["oauthConfig" := VObj o]> (connection config)) in
  <["issue" := VObj {[ "jiraClient" := VObj this ]}]> this.

(** The client that a configuration of the basic-auth mode constructs. *)
Definition basicAuthClient (config : gmap string value) (username password : value)
  : gmap string value :=
  let this :=
    <["basic_auth" := VObj {[ "user" := username; "pass" := password ]}]>
      (connection config) in
  <["issue" := VObj {[ "jiraClient" := VObj this ]}]> this.

(** The URL shape of the interface description,
    [<protocol>://<host>[:<port>]/rest/api/2], followed by the path as
    [buildURL] appends it to the version. *)
Definition apiRoot (protocol host : string) (port : value) : string :=
  protocol +:+ "://" +:+ host
    +:+ (if truthy port then ":" +:+ ToString port else "")
    +:+ "/rest/api/2".

Definition urlShape (protocol host : string) (port : value) (path : string) : string :=
  apiRoot protocol host port +:+ path.

(** A port that is absent, a string or a safe integer: the values of the
    configuration's [port] that [ToString] prints as JavaScript does. *)
Definition plainPort (port : value) : bool :=
  match port with
  | VUndefined | VStr _ => true
  | VNum n => (Z.abs n <=? 9007199254740991)%Z
  | _ => false
  end.

(** The protocols of [Url.slashedProtocol], written without the colon. *)
Definition slashedNames : list string :=
  [ "http"; "https"; "ftp"; "gopher"; "file"; "ws"; "wss" ].

(** *** Concrete configurations *)

Definition oauthRecord : gmap string value :=
  {[ "consumer_key" := VStr "ck"; "private_key" := VStr "pk";
     "token" := VStr "tok"; "token_secret" := VStr "sec";
     "signature_method" := VStr "HMAC-SHA1" ]}.

Definition basicAuthRecord : gmap string value :=
  {[ "username" := VStr "alice"; "password" := VStr "s3cret" ]}.

Definition oauthConfigEx : gmap string value :=
  {[ "host" := VStr "example.com"; "protocol" := VStr "https";
     "oauth" := VObj oauthRecord ]}.

Definition basicConfigEx : gmap string value :=
  {[ "host" := VStr "example.com"; "protocol" := VStr "https";
     "basic_auth" := VObj basicAuthRecord ]}.

Definition requestOptions : gmap string value :=
  {[ "uri" := VStr "https://example.com/rest/api/2/issue/TEST-1";
     "method" := VStr "GET" ]}.

(** An [oauth] record that lacks both [consumer_key] and [private_key]. *)
Definition oauthTwoMissing : gmap string value :=
  {[ "host" := VStr "example.com";
     "oauth" := VObj {[ "token" := VStr "tok"; "token_secret" := VStr "sec" ]} ]}.

(** Configurations with an empty required field. *)
Definition emptyTokenConfig : gmap string value :=
  {[ "host" := VStr "example.com";
     "oauth" := VObj (<["token" := VStr ""]> oauthRecord) ]}.

Definition emptyPasswordConfig : gmap string value :=
  {[ "host" := VStr "example.com";
     "basic_auth" := VObj (<["password" := VStr ""]> basicAuthRecord) ]}.

(** An empty [token] in an [oauth] record without [consumer_key], and an
    empty [username] beside complete OAuth credentials. *)
Definition tokenBehindConsumerKey : gmap string value :=
  {[ "host" := VStr "example.com";
     "oauth" := VObj {[ "private_key" := VStr "pk"; "token" := VStr "";
                        "token_secret" := VStr "sec" ]} ]}.

Definition usernameBesideOAuth : gmap string value :=
  {[ "host" := VStr "example.com"; "oauth" := VObj oauthRecord;
     "basic_auth" := VObj {[ "username" := VStr ""; "password" := VStr "s3cret" ]} ]}.

(** A client that lost its credentials after the construction. *)
Definition strippedClient : gmap string value :=
  delete "basic_auth" (basicAuthClient basicConfigEx (VStr "alice") (VStr "s3cret")).

(** The options of the requests that a trace hands to the transport. *)
Fixpoint requests (trace : list event) : list (gmap string value) :=
  match trace with
  | [] => []
  | Request options :: rest => options :: requests rest
  | Callback _ :: rest => requests rest
  end.

(** A value that is an object. *)
Definition isObject (v : value) : bool :=
  match v with
  | VObj _ => true
  | _ => false
  end.

(** Configurations whose credentials are not objects, and one without a
    username. *)
Definition oauthFlagConfig : gmap string value :=
  {[ "host" := VStr "example.com"; "oauth" := VBool true ]}.

Definition basicStringConfig : gmap string value :=
  {[ "host" := VStr "example.com"; "basic_auth" := VStr "alice:s3cret" ]}.

(** A configuration that names a version and a port, and no protocol. *)
Definition versionedConfig : gmap string value :=
  {[ "host" := VStr "example.com"; "port" := VNum 8080; "version" := VNum 3;
     "basic_auth" := VObj basicAuthRecord ]}.

Definition noUsernameConfig : gmap string value :=
  {[ "host" := VStr "example.com";
     "basic_auth" := VObj {[ "password" := VStr "s3cret" ]} ]}.

(** *** Escaping in the pathname *)

(** A character that [url.format] escapes, or one that it copies. *)
Inductive escaped : ascii -> string -> Prop :=
  | escaped_hash : escaped "#" "%23"
  | escaped_question : escaped "?" "%3F"
  | escaped_copy c : c <> "#"%char -> c <> "?"%char -> escaped c (String c "").

(* ===================================================================== *)
(** ** Properties of the constructor *)
(* ===================================================================== *)

Section Constructor.

Variable config : gmap string value.

Lemma get_absent (o : gmap string value) k : o !! k = None -> truthy (get o k) = false.
Proof. unfold get. intros ->. reflexivity. Qed.

Lemma member_field v k :
  truthy v = true -> member (M:=errorStrings) v k = Return (field v k).
Proof. destruct v; simpl; try discriminate; reflexivity. Qed.

Lemma field_truthy_obj v k :
  truthy (field v k) = true -> exists o, v = VObj o.
Proof. destruct v; simpl; try discriminate. eauto. Qed.

Lemma get_insert_eq (o : gmap string value) k v : get (<[k := v]> o) k = v.
Proof. unfold get. rewrite lookup_insert_eq. reflexivity. Qed.

Lemma get_insert_ne (o : gmap string value) k k' v :
  k <> k' -> get (<[k := v]> o) k' = get o k'.
Proof. intros H. unfold get. rewrite lookup_insert_ne by assumption. reflexivity. Qed.

(** The four outcomes of the constructor, by the checks in their order. *)

Lemma JiraClient_no_host :
  truthy (get config "host") = false ->
  JiraClient config = Throw (Error NO_HOST_ERROR).
Proof. intros H. unfold JiraClient. rewrite H. reflexivity. Qed.

Lemma JiraClient_no_authentication :
  truthy (get config "host") = true ->
  truthy (get config "oauth") = false ->
  truthy (get config "basic_auth") = false ->
  JiraClient config = Throw (Error NO_AUTHENTICATION_ERROR).
Proof. intros Hh Ho Hb. unfold JiraClient. rewrite Hh, Ho, Hb. reflexivity. Qed.

Lemma JiraClient_oauth :
  truthy (get config "host") = true ->
  truthy (get config "oauth") = true ->
  JiraClient config =
    match firstMissing oauthFields (get config "oauth") with
    | Some e => Throw (Error e)
    | None =>
        match get config "oauth" with
        | VObj o => Return (oauthClient config o)
        | _ => Throw TypeError
        end
    end.
Proof.
  intros Hh Ho. unfold JiraClient. rewrite Hh, Ho.
  cbn [negb andb]. rewrite !(member_field _ _ Ho).
  cbn [mbind outcome_bind firstMissing oauthFields].
  repeat (match goal with
          | |- context [truthy (field ?v ?k)] =>
              destruct (truthy (field v k)) eqn:?; cbn [negb]; [| reflexivity]
          end).
  rewrite get_insert_eq.
  destruct (get config "oauth"); reflexivity.
Qed.

Lemma JiraClient_basic_auth :
  truthy (get config "host") = true ->
  truthy (get config "oauth") = false ->
  truthy (get config "basic_auth") = true ->
  JiraClient config =
    match firstMissing basicAuthFields (get config "basic_auth") with
    | Some e => Throw (Error e)
    | None =>
        Return (basicAuthClient config
                  (field (get config "basic_auth") "username")
                  (field (get config "basic_auth") "password"))
    end.
Proof.
  intros Hh Ho Hb. unfold JiraClient. rewrite Hh, Ho, Hb.
  cbn [negb andb]. rewrite !(member_field _ _ Hb).
  cbn [mbind outcome_bind firstMissing basicAuthFields].
  repeat (match goal with
          | |- context [truthy (field ?v ?k)] =>
              destruct (truthy (field v k)) eqn:?; cbn [negb]; [| reflexivity]
          end).
  reflexivity.
Qed.

End Constructor.

(** *** Failures of the construction *)

(** C4.  A configuration whose [host] is missing (reading it gives
    [undefined], or any other falsy value) is rejected with the host-missing
    error, whatever its other properties are. *)
Theorem host_missing_error (config : gmap string value) :
  truthy (get config "host") = false ->
  JiraClient config = Throw (Error NO_HOST_ERROR).
Proof. apply JiraClient_no_host. Qed.

(** The OAuth example without its host: authentication is supplied and the
    host-missing error is still the outcome. *)
Lemma host_missing_error_witness :
  delete "host" oauthConfigEx !! "host" = None
  /\ truthy (get (delete "host" oauthConfigEx) "oauth") = true
  /\ JiraClient (delete "host" oauthConfigEx) = Throw (Error NO_HOST_ERROR).
Proof.
  split; [reflexivity |].
  split; [reflexivity |].
  apply (host_missing_error (delete "host" oauthConfigEx)).
  reflexivity.
Defined.

(** C5.  A configuration that has a host and holds neither an [oauth] nor a
    [basic_auth] record (both read as falsy) is rejected with the
    no-authentication error. *)
Theorem no_authentication_error (config : gmap string value) :
  truthy (get config "host") = true ->
  truthy (get config "oauth") = false ->
  truthy (get config "basic_auth") = false ->
  JiraClient config = Throw (Error NO_AUTHENTICATION_ERROR).
Proof. apply JiraClient_no_authentication. Qed.

Lemma no_authentication_error_witness :
  JiraClient {[ "host" := VStr "example.com"; "port" := VNum 8080 ]}
  = Throw (Error NO_AUTHENTICATION_ERROR).
Proof.
  apply (no_authentication_error {[ "host" := VStr "example.com"; "port" := VNum 8080 ]});
    reflexivity.
Defined.

(** The error of a missing field is the error listed with that field. *)
Lemma firstMissing_listed fields credentials e :
  firstMissing fields credentials = Some e -> In e (map snd fields).
Proof.
  induction fields as [| [k e'] fields IH]; cbn [firstMissing map snd]; [discriminate |].
  destruct (truthy (field credentials k)).
  - intros H. right. exact (IH H).
  - intros [= ->]. left. reflexivity.
Qed.

(** Credentials that lack no OAuth field are an object. *)
Lemma firstMissing_oauth_object credentials :
  firstMissing oauthFields credentials = None -> exists o, credentials = VObj o.
Proof.
  cbn [firstMissing oauthFields].
  destruct (truthy (field credentials "consumer_key")) eqn:H; [| discriminate].
  intros _. exact (field_truthy_obj _ _ H).
Qed.

(** The construction returns a client or throws one of the errors of
    [constructionErrors]. *)
Lemma JiraClient_outcome config :
  (exists this, JiraClient config = Return this)
  \/ (exists e, In e constructionErrors /\ JiraClient config = Throw (Error e)).
Proof.
  destruct (truthy (get config "host")) eqn:Hh.
  2: { right. exists NO_HOST_ERROR. split; [cbn; tauto |].
       apply JiraClient_no_host. assumption. }
  destruct (truthy (get config "oauth")) eqn:Ho.
  - rewrite JiraClient_oauth by assumption.
    destruct (firstMissing oauthFields (get config "oauth")) as [e |] eqn:Hm.
    + right. exists e. split; [| reflexivity].
      apply firstMissing_listed in Hm. cbn in Hm. cbn. tauto.
    + left. destruct (firstMissing_oauth_object _ Hm) as [o ->]. eauto.
  - destruct (truthy (get config "basic_auth")) eqn:Hb.
    + rewrite JiraClient_basic_auth by assumption.
      destruct (firstMissing basicAuthFields (get config "basic_auth")) as [e |] eqn:Hm.
      * right. exists e. split; [| reflexivity].
        apply firstMissing_listed in Hm. cbn in Hm. cbn. tauto.
      * left. eauto.
    + right. exists NO_AUTHENTICATION_ERROR. split; [cbn; tauto |].
      apply JiraClient_no_authentication; assumption.
Qed.

(** C9.  The last [else] of the constructor is dead: a configuration that
    passes the check for some authentication takes the [oauth] or the
    [basic_auth] branch, so the construction returns a client or throws one
    of the eight other errors, and never
    INVALID_AUTHENTICATION_PROPERTY_ERROR. *)
Theorem invalid_authentication_property_unreachable (config : gmap string value) :
  JiraClient config <> Throw (Error INVALID_AUTHENTICATION_PROPERTY_ERROR)
  /\ ((exists this, JiraClient config = Return this)
      \/ (exists e, In e constructionErrors /\ JiraClient config = Throw (Error e))).
Proof.
  split; [| apply JiraClient_outcome].
  intros H.
  destruct (JiraClient_outcome config) as [[this Ht] | (e & Hin & He)];
    rewrite H in *; [discriminate |].
  injection He as <-. cbn in Hin. intuition discriminate.
Qed.

(** C3, as the code has it.  For a configuration that has a host and an
    [oauth] record that lacks one of [consumer_key], [private_key], [token],
    [token_secret], the construction fails with the error of the first
    missing field in that order, and with no other error. *)
Theorem oauth_first_missing_field (config : gmap string value) (e : errorStrings) :
  truthy (get config "host") = true ->
  truthy (get config "oauth") = true ->
  firstMissing oauthFields (get config "oauth") = Some e ->
  JiraClient config = Throw (Error e)
  /\ forall e', JiraClient config = Throw (Error e') -> e' = e.
Proof.
  intros Hh Ho Hm.
  assert (H : JiraClient config = Throw (Error e)).
  { rewrite JiraClient_oauth by assumption. rewrite Hm. reflexivity. }
  split; [exact H |].
  intros e' H'. rewrite H in H'. congruence.
Qed.

Lemma oauth_first_missing_field_witness :
  JiraClient oauthTwoMissing = Throw (Error NO_CONSUMER_KEY_ERROR)
  /\ forall e', JiraClient oauthTwoMissing = Throw (Error e') -> e' = NO_CONSUMER_KEY_ERROR.
Proof.
  apply (oauth_first_missing_field oauthTwoMissing NO_CONSUMER_KEY_ERROR); reflexivity.
Defined.

(** C3 as stated fails where the host is missing too: the [oauth] record is
    present and lacks [consumer_key], and the error is the host's. *)
Lemma oauth_missing_field_without_host :
  let config : gmap string value := {[ "oauth" := VObj ∅ ]} in
  truthy (get config "oauth") = true
  /\ firstMissing oauthFields (get config "oauth") = Some NO_CONSUMER_KEY_ERROR
  /\ JiraClient config = Throw (Error NO_HOST_ERROR)
  /\ JiraClient config <> Throw (Error NO_CONSUMER_KEY_ERROR).
Proof.
  cbv zeta. repeat split; try reflexivity.
  intros H. vm_compute in H. discriminate H.
Qed.

(** The errors of the four OAuth fields are pairwise distinct. *)
Lemma oauthFields_distinct : NoDup (map snd oauthFields).
Proof.
  unfold oauthFields. cbn [map snd].
  repeat (constructor; [rewrite ?elem_of_cons, elem_of_nil; intuition discriminate |]).
  constructor.
Qed.

(** *** What a constructed client holds *)

Ltac simpl_get :=
  repeat first
    [ rewrite get_insert_eq
    | rewrite get_insert_ne by discriminate
    | rewrite lookup_insert_ne by discriminate
    | rewrite lookup_insert_eq ].

Lemma connection_host config : get (connection config) "host" = get config "host".
Proof. unfold connection. simpl_get. reflexivity. Qed.

Lemma connection_protocol config :
  get (connection config) "protocol"
  = if truthy (get config "protocol") then get config "protocol" else VStr "https".
Proof. unfold connection. simpl_get. reflexivity. Qed.

Lemma connection_port config : get (connection config) "port" = get config "port".
Proof. unfold connection. simpl_get. reflexivity. Qed.

Lemma connection_version config : get (connection config) "version" = VNum 2.
Proof. unfold connection. simpl_get. reflexivity. Qed.

Lemma connection_no_oauthConfig config : connection config !! "oauthConfig" = None.
Proof. unfold connection. simpl_get. reflexivity. Qed.

Lemma connection_no_basic_auth config : connection config !! "basic_auth" = None.
Proof. unfold connection. simpl_get. reflexivity. Qed.

Lemma oauthClient_oauthConfig config o :
  get (oauthClient config o) "oauthConfig"
  = VObj (<["signature_method" := VStr "RSA-SHA1"]> o).
Proof. unfold oauthClient. simpl_get. reflexivity. Qed.

Lemma oauthClient_no_basic_auth config o : oauthClient config o !! "basic_auth" = None.
Proof. unfold oauthClient. simpl_get. apply connection_no_basic_auth. Qed.

Lemma basicAuthClient_basic_auth config username password :
  get (basicAuthClient config username password) "basic_auth"
  = VObj {[ "user" := username; "pass" := password ]}.
Proof. unfold basicAuthClient. simpl_get. reflexivity. Qed.

Lemma basicAuthClient_no_oauthConfig config username password :
  basicAuthClient config username password !! "oauthConfig" = None.
Proof. unfold basicAuthClient. simpl_get. apply connection_no_oauthConfig. Qed.

(** Every constructed client is of one of the two modes. *)
Lemma JiraClient_constructed config this :
  JiraClient config = Return this ->
  truthy (get config "host") = true
  /\ ((exists o, get config "oauth" = VObj o
                 /\ firstMissing oauthFields (VObj o) = None
                 /\ this = oauthClient config o)
      \/ (truthy (get config "oauth") = false
          /\ truthy (get config "basic_auth") = true
          /\ firstMissing basicAuthFields (get config "basic_auth") = None
          /\ this = basicAuthClient config
                      (field (get config "basic_auth") "username")
                      (field (get config "basic_auth") "password"))).
Proof.
  intros H.
  destruct (truthy (get config "host")) eqn:Hh.
  2: { rewrite JiraClient_no_host in H by assumption. discriminate. }
  split; [reflexivity |].
  destruct (truthy (get config "oauth")) eqn:Ho.
  - left. rewrite JiraClient_oauth in H by assumption.
    destruct (firstMissing oauthFields (get config "oauth")) eqn:Hm; [discriminate |].
    destruct (get config "oauth") eqn:Hv; try discriminate.
    injection H as <-. eauto.
  - right. destruct (truthy (get config "basic_auth")) eqn:Hb.
    + rewrite JiraClient_basic_auth in H by assumption.
      destruct (firstMissing basicAuthFields (get config "basic_auth")) eqn:Hm;
        [discriminate |].
      injection H as <-. auto.
    + rewrite JiraClient_no_authentication in H by assumption. discriminate.
Qed.

(** C6.  For a configuration with valid OAuth credentials (an [oauth]
    record that lacks none of the four fields): with a host it is accepted,
    and the signing configuration stored on the constructed client has
    [signature_method] equal to ["RSA-SHA1"], whatever the record held
    under that name; and no client constructed from it stores another
    value. *)
Theorem oauth_signature_method (config : gmap string value) :
  firstMissing oauthFields (get config "oauth") = None ->
  (truthy (get config "host") = true ->
   exists this,
     JiraClient config = Return this
     /\ field (get this "oauthConfig") "signature_method" = VStr "RSA-SHA1")
  /\ (forall this,
        JiraClient config = Return this ->
        field (get this "oauthConfig") "signature_method" = VStr "RSA-SHA1").
Proof.
  intros Hm.
  destruct (firstMissing_oauth_object _ Hm) as [o Ho].
  assert (Hs : field (get (oauthClient config o) "oauthConfig") "signature_method"
               = VStr "RSA-SHA1").
  { rewrite oauthClient_oauthConfig. cbn [field]. apply get_insert_eq. }
  split.
  - intros Hh. exists (oauthClient config o). split; [| exact Hs].
    rewrite JiraClient_oauth, Hm, Ho; [reflexivity | assumption |].
    rewrite Ho. reflexivity.
  - intros this H.
    apply JiraClient_constructed in H as [_ [(o' & Ho' & _ & ->) | (Hf & _)]].
    + assert (o' = o) as -> by congruence. exact Hs.
    + rewrite Ho in Hf. discriminate.
Qed.

(** The input names HMAC-SHA1; the constructor accepts it and stores
    RSA-SHA1. *)
Lemma oauth_signature_method_witness :
  field (get oauthConfigEx "oauth") "signature_method" = VStr "HMAC-SHA1"
  /\ exists this,
       JiraClient oauthConfigEx = Return this
       /\ field (get this "oauthConfig") "signature_method" = VStr "RSA-SHA1".
Proof.
  split; [reflexivity |].
  apply (proj1 (oauth_signature_method oauthConfigEx eq_refl)). reflexivity.
Defined.

(** C8, as the code has it.  For a configuration that has a host and a
    complete [oauth] record, the construction succeeds whatever is supplied
    as [basic_auth]: the client stores the OAuth configuration, has no
    [basic_auth] property, and does not depend on the [basic_auth] value,
    which is neither validated nor retained. *)
Theorem oauth_takes_precedence (config o : gmap string value) (basic_auth : value) :
  truthy (get config "host") = true ->
  get config "oauth" = VObj o ->
  firstMissing oauthFields (VObj o) = None ->
  JiraClient (<["basic_auth" := basic_auth]> config) = Return (oauthClient config o)
  /\ get (oauthClient config o) "oauthConfig"
     = VObj (<["signature_method" := VStr "RSA-SHA1"]> o)
  /\ oauthClient config o !! "basic_auth" = None.
Proof.
  intros Hh Ho Hm. split; [| split].
  - rewrite JiraClient_oauth; simpl_get; rewrite ?Ho; try assumption; try reflexivity.
    rewrite Hm. unfold oauthClient, connection. simpl_get. reflexivity.
  - apply oauthClient_oauthConfig.
  - apply oauthClient_no_basic_auth.
Qed.

(** Basic-auth credentials without a password next to complete OAuth
    credentials: accepted, and not kept. *)
Lemma oauth_takes_precedence_witness :
  JiraClient (<["basic_auth" := VObj {[ "username" := VStr "alice" ]}]> oauthConfigEx)
  = Return (oauthClient oauthConfigEx oauthRecord)
  /\ get (oauthClient oauthConfigEx oauthRecord) "oauthConfig"
     = VObj (<["signature_method" := VStr "RSA-SHA1"]> oauthRecord)
  /\ oauthClient oauthConfigEx oauthRecord !! "basic_auth" = None.
Proof.
  apply (oauth_takes_precedence oauthConfigEx oauthRecord
           (VObj {[ "username" := VStr "alice" ]})); reflexivity.
Defined.

(** C8 as stated fails where the host is missing: both kinds of credentials
    are supplied and complete, and nothing is constructed. *)
Lemma both_credentials_without_host :
  let config : gmap string value :=
    {[ "oauth" := VObj oauthRecord; "basic_auth" := VObj basicAuthRecord ]} in
  firstMissing oauthFields (get config "oauth") = None
  /\ firstMissing basicAuthFields (get config "basic_auth") = None
  /\ JiraClient config = Throw (Error NO_HOST_ERROR)
  /\ forall this, JiraClient config <> Return this.
Proof.
  cbv zeta. repeat split; try reflexivity.
  intros this H. vm_compute in H. discriminate H.
Qed.

(** *** Empty strings *)

Lemma firstMissing_app pre fields credentials :
  firstMissing (pre ++ fields) credentials
  = match firstMissing pre credentials with
    | Some e => Some e
    | None => firstMissing fields credentials
    end.
Proof.
  induction pre as [| [k e] pre IH]; cbn [app firstMissing]; [reflexivity |].
  destruct (truthy (field credentials k)); [apply IH | reflexivity].
Qed.

(** A field that holds the empty string, after fields that are present, is
    the first missing one. *)
Lemma firstMissing_empty pre k e post credentials :
  firstMissing pre credentials = None ->
  field credentials k = VStr "" ->
  firstMissing (pre ++ (k, e) :: post) credentials = Some e.
Proof.
  intros Hpre Hk. rewrite firstMissing_app, Hpre.
  cbn [firstMissing]. rewrite Hk. reflexivity.
Qed.

(** Writing the empty string into a required field gives the outcome of
    removing the field. *)

Lemma get_delete_eq (o : gmap string value) k : get (delete k o) k = VUndefined.
Proof. unfold get. rewrite lookup_delete_eq. reflexivity. Qed.

Lemma get_delete_ne (o : gmap string value) k k' :
  k <> k' -> get (delete k o) k' = get o k'.
Proof. intros H. unfold get. rewrite lookup_delete_ne by assumption. reflexivity. Qed.

Ltac simpl_get_delete :=
  repeat first
    [ rewrite get_insert_eq
    | rewrite get_delete_eq
    | rewrite get_insert_ne by discriminate
    | rewrite get_delete_ne by discriminate ].

Lemma connection_ext config config' :
  get config "host" = get config' "host" ->
  get config "protocol" = get config' "protocol" ->
  get config "port" = get config' "port" ->
  connection config = connection config'.
Proof. unfold connection. intros -> -> ->. reflexivity. Qed.

Lemma empty_host_as_absent config :
  JiraClient (<["host" := VStr ""]> config) = JiraClient (delete "host" config).
Proof.
  rewrite !JiraClient_no_host; [reflexivity | |]; simpl_get_delete; reflexivity.
Qed.

Lemma firstMissing_ext fields v v' :
  (forall k e, In (k, e) fields -> truthy (field v k) = truthy (field v' k)) ->
  firstMissing fields v = firstMissing fields v'.
Proof.
  induction fields as [| [k e] fields IH]; intros H; cbn [firstMissing]; [reflexivity |].
  rewrite (H k e) by (left; reflexivity).
  rewrite IH by (intros ? ? ?; eapply H; right; eassumption).
  reflexivity.
Qed.

Lemma firstMissing_lacking fields v k e :
  In (k, e) fields ->
  truthy (field v k) = false ->
  exists e', firstMissing fields v = Some e'.
Proof.
  induction fields as [| [k' e'] fields IH]; intros Hin Hk; [destruct Hin |].
  cbn [firstMissing]. destruct (truthy (field v k')) eqn:Hk'.
  - destruct Hin as [[= -> ->] | Hin]; [congruence | auto].
  - eauto.
Qed.

Lemma empty_oauth_field_as_absent config o k e :
  In (k, e) oauthFields ->
  JiraClient (<["oauth" := VObj (<[k := VStr ""]> o)]> config)
  = JiraClient (<["oauth" := VObj (delete k o)]> config).
Proof.
  intros Hin.
  destruct (truthy (get config "host")) eqn:Hh.
  2: { rewrite !JiraClient_no_host; [reflexivity | |]; simpl_get_delete; assumption. }
  rewrite !JiraClient_oauth; simpl_get_delete; try assumption; try reflexivity.
  assert (Hsame : firstMissing oauthFields (VObj (<[k := VStr ""]> o))
                  = firstMissing oauthFields (VObj (delete k o))).
  { apply firstMissing_ext. intros k' e' _. cbn [field].
    destruct (decide (k = k')) as [<- | Hne].
    - rewrite get_insert_eq, get_delete_eq. reflexivity.
    - rewrite get_insert_ne, get_delete_ne by assumption. reflexivity. }
  rewrite Hsame.
  destruct (firstMissing_lacking oauthFields (VObj (delete k o)) k e Hin) as [e' ->];
    [| reflexivity].
  cbn [field]. rewrite get_delete_eq. reflexivity.
Qed.

Lemma empty_basic_auth_field_as_absent config b k e :
  In (k, e) basicAuthFields ->
  JiraClient (<["basic_auth" := VObj (<[k := VStr ""]> b)]> config)
  = JiraClient (<["basic_auth" := VObj (delete k b)]> config).
Proof.
  intros Hin.
  destruct (truthy (get config "host")) eqn:Hh.
  2: { rewrite !JiraClient_no_host; [reflexivity | |]; simpl_get_delete; assumption. }
  destruct (truthy (get config "oauth")) eqn:Ho.
  - rewrite !JiraClient_oauth; simpl_get_delete; try assumption.
    destruct (firstMissing oauthFields (get config "oauth")); [reflexivity |].
    destruct (get config "oauth"); try reflexivity.
    f_equal. unfold oauthClient.
    rewrite (connection_ext (<["basic_auth" := VObj (<[k := VStr ""]> b)]> config)
               (<["basic_auth" := VObj (delete k b)]> config));
      simpl_get_delete; reflexivity.
  - rewrite !JiraClient_basic_auth; simpl_get_delete; try assumption; try reflexivity.
    assert (Hsame : firstMissing basicAuthFields (VObj (<[k := VStr ""]> b))
                    = firstMissing basicAuthFields (VObj (delete k b))).
    { apply firstMissing_ext. intros k' e' _. cbn [field].
      destruct (decide (k = k')) as [<- | Hne].
      - rewrite get_insert_eq, get_delete_eq. reflexivity.
      - rewrite get_insert_ne, get_delete_ne by assumption. reflexivity. }
    rewrite Hsame.
    destruct (firstMissing_lacking basicAuthFields (VObj (delete k b)) k e Hin) as [e' ->];
      [| reflexivity].
    cbn [field]. rewrite get_delete_eq. reflexivity.
Qed.

Lemma empty_protocol_as_absent config :
  JiraClient (<["protocol" := VStr ""]> config) = JiraClient (delete "protocol" config).
Proof.
  unfold JiraClient. simpl_get_delete. reflexivity.
Qed.

(** C10, as the code has it.  The required fields are tested for
    truthiness, so writing the empty string into one gives exactly the
    outcome of removing it.  An empty [host] gives the host-missing error.
    With a host, an empty OAuth field gives the error of that field when
    the OAuth fields before it are present; with a host and no [oauth], an
    empty [username] or [password] gives its error when the field before
    it is present.  An empty [protocol] is replaced by ["https"] on every
    constructed client. *)
Theorem empty_string_is_missing (config : gmap string value) :
  (get config "host" = VStr "" ->
   JiraClient config = Throw (Error NO_HOST_ERROR))
  /\ (forall pre k e post,
        oauthFields = pre ++ (k, e) :: post ->
        truthy (get config "host") = true ->
        truthy (get config "oauth") = true ->
        firstMissing pre (get config "oauth") = None ->
        field (get config "oauth") k = VStr "" ->
        JiraClient config = Throw (Error e))
  /\ (forall pre k e post,
        basicAuthFields = pre ++ (k, e) :: post ->
        truthy (get config "host") = true ->
        truthy (get config "oauth") = false ->
        truthy (get config "basic_auth") = true ->
        firstMissing pre (get config "basic_auth") = None ->
        field (get config "basic_auth") k = VStr "" ->
        JiraClient config = Throw (Error e))
  /\ (get config "protocol" = VStr "" ->
      forall this, JiraClient config = Return this ->
                   get this "protocol" = VStr "https")
  /\ JiraClient (<["host" := VStr ""]> config) = JiraClient (delete "host" config)
  /\ (forall o k e,
        In (k, e) oauthFields ->
        JiraClient (<["oauth" := VObj (<[k := VStr ""]> o)]> config)
        = JiraClient (<["oauth" := VObj (delete k o)]> config))
  /\ (forall b k e,
        In (k, e) basicAuthFields ->
        JiraClient (<["basic_auth" := VObj (<[k := VStr ""]> b)]> config)
        = JiraClient (<["basic_auth" := VObj (delete k b)]> config))
  /\ JiraClient (<["protocol" := VStr ""]> config)
     = JiraClient (delete "protocol" config).
Proof.
  split; [| split; [| split; [| split; [| split; [| split; [| split]]]]]].
  - intros H. apply JiraClient_no_host. rewrite H. reflexivity.
  - intros pre k e post Hf Hh Ho Hpre Hk.
    rewrite JiraClient_oauth by assumption.
    rewrite Hf, (firstMissing_empty _ _ _ _ _ Hpre Hk). reflexivity.
  - intros pre k e post Hf Hh Ho Hb Hpre Hk.
    rewrite JiraClient_basic_auth by assumption.
    rewrite Hf, (firstMissing_empty _ _ _ _ _ Hpre Hk). reflexivity.
  - intros Hp this H.
    apply JiraClient_constructed in H as [_ [(o & _ & _ & ->) | (_ & _ & _ & ->)]].
    + unfold oauthClient. simpl_get. rewrite connection_protocol, Hp. reflexivity.
    + unfold basicAuthClient. simpl_get. rewrite connection_protocol, Hp. reflexivity.
  - apply empty_host_as_absent.
  - intros o k e Hin. exact (empty_oauth_field_as_absent config o k e Hin).
  - intros b k e Hin. exact (empty_basic_auth_field_as_absent config b k e Hin).
  - apply empty_protocol_as_absent.
Qed.

Lemma empty_string_is_missing_witness :
  JiraClient (<["host" := VStr ""]> oauthConfigEx) = Throw (Error NO_HOST_ERROR)
  /\ JiraClient emptyTokenConfig = Throw (Error NO_OAUTH_TOKEN_ERROR)
  /\ JiraClient emptyPasswordConfig = Throw (Error NO_PASSWORD_ERROR)
  /\ get (basicAuthClient (<["protocol" := VStr ""]> basicConfigEx)
            (VStr "alice") (VStr "s3cret")) "protocol" = VStr "https".
Proof.
  split; [| split; [| split]].
  - apply (proj1 (empty_string_is_missing (<["host" := VStr ""]> oauthConfigEx))).
    reflexivity.
  - apply (proj1 (proj2 (empty_string_is_missing emptyTokenConfig))
             [("consumer_key", NO_CONSUMER_KEY_ERROR); ("private_key", NO_PRIVATE_KEY_ERROR)]
             "token" NO_OAUTH_TOKEN_ERROR
             [("token_secret", NO_OAUTH_TOKEN_SECRET_ERROR)]); reflexivity.
  - apply (proj1 (proj2 (proj2 (empty_string_is_missing emptyPasswordConfig)))
             [("username", NO_USERNAME_ERROR)] "password" NO_PASSWORD_ERROR []);
      reflexivity.
  - apply (proj1 (proj2 (proj2 (proj2
             (empty_string_is_missing (<["protocol" := VStr ""]> basicConfigEx)))))).
    + reflexivity.
    + vm_compute. reflexivity.
Defined.

(** C10 as stated fails where another check comes first: an empty [token]
    behind a missing [consumer_key] gives the consumer-key error, and an
    empty [username] beside complete OAuth credentials is not looked at. *)
Lemma empty_field_behind_another_check :
  field (get tokenBehindConsumerKey "oauth") "token" = VStr ""
  /\ JiraClient tokenBehindConsumerKey = Throw (Error NO_CONSUMER_KEY_ERROR)
  /\ JiraClient tokenBehindConsumerKey <> Throw (Error NO_OAUTH_TOKEN_ERROR)
  /\ field (get usernameBesideOAuth "basic_auth") "username" = VStr ""
  /\ JiraClient usernameBesideOAuth = Return (oauthClient usernameBesideOAuth oauthRecord)
  /\ JiraClient usernameBesideOAuth <> Throw (Error NO_USERNAME_ERROR).
Proof.
  repeat split; intros H; vm_compute in H; discriminate H.
Qed.

(* ===================================================================== *)
(** ** Properties of [makeRequest] *)
(* ===================================================================== *)

Lemma makeRequest_oauth this options :
  truthy (get this "oauthConfig") = true ->
  makeRequest this options = [Request (<["oauth" := get this "oauthConfig"]> options)].
Proof. intros H. unfold makeRequest. rewrite H. reflexivity. Qed.

Lemma makeRequest_basic_auth this options :
  truthy (get this "oauthConfig") = false ->
  truthy (get this "basic_auth") = true ->
  makeRequest this options = [Request (<["auth" := get this "basic_auth"]> options)].
Proof. intros Ho Hb. unfold makeRequest. rewrite Ho, Hb. reflexivity. Qed.

Lemma makeRequest_neither this options :
  truthy (get this "oauthConfig") = false ->
  truthy (get this "basic_auth") = false ->
  makeRequest this options = [Callback NO_AUTHENTICATION_ERROR; Request options].
Proof. intros Ho Hb. unfold makeRequest. rewrite Ho, Hb. reflexivity. Qed.

(** C7.  On a client constructed in the OAuth mode, [makeRequest] hands the
    transport the options with [oauth] set to the stored signing
    configuration and [auth] as the caller left it.  On a client constructed
    in the basic-auth mode, the stored credentials are [{user, pass}], taken
    from [username] and [password], and [makeRequest] hands the transport
    the options with [auth] set to them and [oauth] as the caller left it.
    Nothing else happens in either call. *)
Theorem makeRequest_attaches_authentication (config this options : gmap string value) :
  JiraClient config = Return this ->
  (truthy (get config "oauth") = true ->
   exists o,
     get config "oauth" = VObj o
     /\ get this "oauthConfig" = VObj (<["signature_method" := VStr "RSA-SHA1"]> o)
     /\ makeRequest this options
        = [Request (<["oauth" := get this "oauthConfig"]> options)]
     /\ (<["oauth" := get this "oauthConfig"]> options) !! "auth" = options !! "auth")
  /\ (truthy (get config "oauth") = false ->
      get this "basic_auth"
      = VObj {[ "user" := field (get config "basic_auth") "username";
                "pass" := field (get config "basic_auth") "password" ]}
      /\ makeRequest this options
         = [Request (<["auth" := get this "basic_auth"]> options)]
      /\ (<["auth" := get this "basic_auth"]> options) !! "oauth" = options !! "oauth").
Proof.
  intros H.
  apply JiraClient_constructed in H as [_ [(o & Ho & _ & ->) | (Ho & _ & _ & ->)]].
  - split; intros Ht; [| rewrite Ho in Ht; discriminate].
    exists o. split; [assumption |].
    split; [apply oauthClient_oauthConfig |].
    split; [| apply lookup_insert_ne; discriminate].
    apply makeRequest_oauth. rewrite oauthClient_oauthConfig. reflexivity.
  - split; intros Ht; [congruence |].
    split; [apply basicAuthClient_basic_auth |].
    split; [| apply lookup_insert_ne; discriminate].
    apply makeRequest_basic_auth.
    + unfold get. rewrite basicAuthClient_no_oauthConfig. reflexivity.
    + rewrite basicAuthClient_basic_auth. reflexivity.
Qed.

Lemma makeRequest_attaches_authentication_witness :
  makeRequest (oauthClient oauthConfigEx oauthRecord) requestOptions
  = [Request (<["oauth" := VObj (<["signature_method" := VStr "RSA-SHA1"]> oauthRecord)]>
                requestOptions)]
  /\ makeRequest (basicAuthClient basicConfigEx (VStr "alice") (VStr "s3cret")) requestOptions
     = [Request (<["auth" := VObj {[ "user" := VStr "alice"; "pass" := VStr "s3cret" ]}]>
                   requestOptions)].
Proof.
  split.
  - destruct (proj1 (makeRequest_attaches_authentication oauthConfigEx
                       (oauthClient oauthConfigEx oauthRecord) requestOptions
                       eq_refl) eq_refl) as (o & _ & Hs & Hr & _).
    rewrite Hr, oauthClient_oauthConfig. reflexivity.
  - destruct (proj2 (makeRequest_attaches_authentication basicConfigEx
                       (basicAuthClient basicConfigEx (VStr "alice") (VStr "s3cret"))
                       requestOptions eq_refl) eq_refl) as (Hs & Hr & _).
    rewrite Hr, basicAuthClient_basic_auth. reflexivity.
Defined.

(** C1, on the code.  On a client that stores neither an OAuth configuration
    nor basic-auth credentials, [makeRequest] calls [callback] once with
    NO_AUTHENTICATION_ERROR and then goes on to hand the unchanged options
    to the transport. *)
Theorem makeRequest_without_authentication (this options : gmap string value) :
  truthy (get this "oauthConfig") = false ->
  truthy (get this "basic_auth") = false ->
  makeRequest this options = [Callback NO_AUTHENTICATION_ERROR; Request options]
  /\ In (Request options) (makeRequest this options).
Proof.
  intros Ho Hb. rewrite (makeRequest_neither _ _ Ho Hb).
  split; [reflexivity | right; left; reflexivity].
Qed.

Lemma makeRequest_without_authentication_witness :
  makeRequest strippedClient requestOptions
  = [Callback NO_AUTHENTICATION_ERROR; Request requestOptions]
  /\ In (Request requestOptions) (makeRequest strippedClient requestOptions).
Proof.
  apply (makeRequest_without_authentication strippedClient requestOptions); reflexivity.
Defined.

(* ===================================================================== *)
(** ** Properties of [buildURL] *)
(* ===================================================================== *)

Section Decoding.

Context {M : Type}.

Lemma append_String c s t : String c s +:+ t = String c (s +:+ t).
Proof. reflexivity. Qed.

Lemma append_Empty t : "" +:+ t = t.
Proof. reflexivity. Qed.

Lemma Decode_percent st h1 h2 rest :
  Uri.Decode (M:=M) st (String "%" (String h1 (String h2 rest)))
  = match Uri.ParseHexOctet h1 h2 with
    | None => Throw URIError
    | Some B =>
        match Uri.escape st B with
        | None => Throw URIError
        | Some (text, st') => R ← Uri.Decode st' rest; Return (text +:+ R)
        end
    end.
Proof. reflexivity. Qed.

Lemma Decode_plain st C tail :
  C <> "%"%char ->
  Uri.Decode (M:=M) st (String C tail)
  = match st with
    | None => R ← Uri.Decode None tail; Return (String C R)
    | Some _ => Throw URIError
    end.
Proof.
  intros H. cbn [Uri.Decode].
  destruct (Ascii.eqb_spec C "%"); [contradiction | reflexivity].
Qed.

Lemma ParseHexOctet_not_hex_l h1 h2 :
  Uri.hexDigit h1 = None -> Uri.ParseHexOctet h1 h2 = None.
Proof. unfold Uri.ParseHexOctet. intros ->. reflexivity. Qed.

Lemma ParseHexOctet_not_hex_r h1 h2 :
  Uri.hexDigit h2 = None -> Uri.ParseHexOctet h1 h2 = None.
Proof.
  unfold Uri.ParseHexOctet. intros ->. destruct (Uri.hexDigit h1); reflexivity.
Qed.

Lemma escapeChar_escaped c : escaped c (Url.escapeChar c).
Proof.
  unfold Url.escapeChar.
  destruct (Ascii.eqb_spec c "#") as [-> | H1]; [constructor |].
  destruct (Ascii.eqb_spec c "?") as [-> | H2]; [constructor |].
  constructor; assumption.
Qed.

(** An escaped character cannot be a hexadecimal digit of an escape, and
    neither can the [%] that replaces it. *)
Lemma escaped_digit_l c text h2 rest st :
  escaped c text -> text <> String c "" ->
  Uri.Decode (M:=M) st (String "%" (text +:+ rest)) = Throw URIError
  /\ Uri.Decode (M:=M) st (String "%" (String c (String h2 rest))) = Throw URIError
  /\ Uri.Decode (M:=M) st (String "%" (String c "")) = Throw URIError.
Proof.
  intros H Hne. destruct H; [| | contradiction]; repeat split.
Qed.

Lemma escaped_digit_r c text h1 rest rest' st :
  escaped c text -> text <> String c "" ->
  Uri.Decode (M:=M) st (String "%" (String h1 (text +:+ rest))) = Throw URIError
  /\ Uri.Decode (M:=M) st (String "%" (String h1 (String c rest'))) = Throw URIError.
Proof.
  intros H Hne. destruct H; [| | contradiction]; rewrite ?append_String, ?append_Empty;
    rewrite !Decode_percent, !ParseHexOctet_not_hex_r by reflexivity; split; reflexivity.
Qed.

(** An escaped character outside an escape decodes to itself; inside a
    multi-byte sequence both forms are rejected. *)
Lemma escaped_char c text st rest rest' :
  escaped c text -> text <> String c "" ->
  Uri.Decode (M:=M) st rest = Uri.Decode st rest' ->
  Uri.Decode (M:=M) st (text +:+ rest) = Uri.Decode st (String c rest').
Proof.
  intros H Hne IH. destruct H; [| | contradiction]; rewrite ?append_String, ?append_Empty;
    rewrite Decode_percent, Decode_plain by discriminate;
    (destruct st as [[Octets j] |]; [reflexivity |]);
    cbv -[Uri.Decode]; rewrite IH; reflexivity.
Qed.

End Decoding.

Section Escaping.

Context {M : Type}.

Lemma escapePathname_cons c s :
  Url.escapePathname (String c s) = Url.escapeChar c +:+ Url.escapePathname s.
Proof. reflexivity. Qed.

Lemma escapePathname_app s t :
  Url.escapePathname (s +:+ t) = Url.escapePathname s +:+ Url.escapePathname t.
Proof.
  induction s as [| c s IH]; [reflexivity |].
  rewrite append_String, !escapePathname_cons, IH.
  generalize (Url.escapeChar c) as text. intros text.
  induction text as [| d text IHt]; [reflexivity |].
  rewrite !append_String, IHt. reflexivity.
Qed.

(** Decoding does not see whether [#] and [?] were escaped in a suffix of
    the string: the escapes that [url.format] writes into the pathname
    are undone by [decodeURIComponent]. *)
Lemma Decode_escapePathname_bounded n :
  forall pre s st,
    String.length pre + String.length s < n ->
    Uri.Decode (M:=M) st (pre +:+ Url.escapePathname s) = Uri.Decode st (pre +:+ s).
Proof.
  induction n as [| n IH]; intros pre s st Hlen; [lia |].
  assert (Hcons : forall c pre s st,
             String.length pre + String.length s < n ->
             Uri.Decode (M:=M) st (String c (pre +:+ Url.escapePathname s))
             = Uri.Decode st (String c (pre +:+ s))).
  { clear pre s st Hlen. intros c pre s st Hlen.
    destruct (Ascii.eqb_spec c "%") as [-> | Hc].
    2: { rewrite !Decode_plain by assumption.
         destruct st; [reflexivity |]. rewrite IH by lia. reflexivity. }
    destruct pre as [| a [| b pre]].
    - rewrite !append_Empty.
      destruct s as [| d s]; [reflexivity |].
      rewrite escapePathname_cons.
      destruct (string_dec (Url.escapeChar d) (String d "")) as [-> | Hd].
      + rewrite append_String, append_Empty.
        destruct s as [| e s]; [reflexivity |].
        rewrite escapePathname_cons.
        destruct (string_dec (Url.escapeChar e) (String e "")) as [-> | He].
        * rewrite append_String, append_Empty, !Decode_percent.
          destruct (Uri.ParseHexOctet d e); [| reflexivity].
          destruct (Uri.escape st n0) as [[text st'] |]; [| reflexivity].
          cbn [String.length] in Hlen.
          rewrite <- (append_Empty (Url.escapePathname s)), IH by (cbn; lia).
          reflexivity.
        * destruct (escaped_digit_r (M:=M) e _ d (Url.escapePathname s) s st
                      (escapeChar_escaped e) He) as [-> ->].
          reflexivity.
      + destruct (escaped_digit_l (M:=M) d _ "a" (Url.escapePathname s) st
                    (escapeChar_escaped d) Hd) as (-> & _ & Hshort).
        destruct s as [| e s]; [rewrite Hshort; reflexivity |].
        destruct (escaped_digit_l (M:=M) d _ e s st (escapeChar_escaped d) Hd) as (_ & -> & _).
        reflexivity.
    - rewrite !append_String, !append_Empty.
      destruct s as [| d s]; [reflexivity |].
      rewrite escapePathname_cons.
      destruct (string_dec (Url.escapeChar d) (String d "")) as [-> | Hd].
      + rewrite append_String, append_Empty, !Decode_percent.
        destruct (Uri.ParseHexOctet a d); [| reflexivity].
        destruct (Uri.escape st n0) as [[text st'] |]; [| reflexivity].
        cbn [String.length] in Hlen.
        rewrite <- (append_Empty (Url.escapePathname s)), IH by (cbn; lia).
        reflexivity.
      + destruct (escaped_digit_r (M:=M) d _ a (Url.escapePathname s) s st
                    (escapeChar_escaped d) Hd) as [-> ->].
        reflexivity.
    - rewrite !append_String, !Decode_percent.
      destruct (Uri.ParseHexOctet a b); [| reflexivity].
      destruct (Uri.escape st n0) as [[text st'] |]; [| reflexivity].
      cbn [String.length] in Hlen.
      rewrite IH by lia. reflexivity. }
  destruct pre as [| c pre].
  - rewrite !append_Empty.
    destruct s as [| c s]; [reflexivity |].
    rewrite escapePathname_cons. cbn [String.length] in Hlen.
    destruct (string_dec (Url.escapeChar c) (String c "")) as [-> | Hc].
    + rewrite append_String, append_Empty.
      apply (Hcons c "" s st). cbn. lia.
    + apply escaped_char; [apply escapeChar_escaped | assumption |].
      apply (IH "" s st). cbn. lia.
  - rewrite !append_String. cbn [String.length] in Hlen. apply Hcons. lia.
Qed.

Lemma Decode_escapePathname pre s st :
  Uri.Decode (M:=M) st (pre +:+ Url.escapePathname s) = Uri.Decode st (pre +:+ s).
Proof.
  apply (Decode_escapePathname_bounded (S (String.length pre + String.length s))). lia.
Qed.

End Escaping.

Section Formatting.

Context {M : Type}.

Lemma append_assoc' (s t u : string) : (s +:+ t) +:+ u = s +:+ (t +:+ u).
Proof.
  induction s as [| c s IH]; [reflexivity |].
  rewrite !append_String, IH. reflexivity.
Qed.

(** On a slashed protocol and a host name without a colon, [url.format]
    writes the shape of the interface description, with [#] and [?]
    escaped in the path. *)
Lemma format_shape protocol host port path :
  In protocol slashedNames ->
  truthy (VStr host) = true ->
  Url.includes ":" host = false ->
  Url.format (M:=M)
    {[ "protocol" := VStr protocol; "hostname" := VStr host; "port" := port;
       "pathname" := VStr ("rest/api/" +:+ ToString (VNum 2) +:+ path) ]}
  = Return (apiRoot protocol host port +:+ Url.escapePathname path).
Proof.
  intros Hp Hh Hc. unfold Url.format.
  change (get _ "protocol") with (VStr protocol).
  change (get _ "hostname") with (VStr host).
  change (get _ "port") with port.
  change (get _ "pathname") with (VStr ("rest/api/2" +:+ path)).
  rewrite Hh. unfold Url.orEmpty. rewrite Hh.
  assert (Hpath : truthy (VStr ("rest/api/2" +:+ path)) = true) by reflexivity.
  rewrite Hpath.
  assert (Hproto : truthy (VStr protocol) = true
                   /\ Url.is_char ":" (Url.lastChar protocol) = false
                   /\ Url.has Url.slashedProtocol (protocol +:+ ":") = true).
  { repeat (destruct Hp as [<- | Hp]; [repeat split |]). destruct Hp. }
  destruct Hproto as (Hp1 & Hp2 & Hp3).
  rewrite Hp1. cbn [ToString]. cbv zeta.
  rewrite Hc. cbn [andb].
  assert (Hhost : forall s, negb (((host +:+ s) =? "")%string) = true).
  { destruct host; [discriminate | reflexivity]. }
  cbn [truthy] in Hp1, Hh.
  unfold apiRoot.
  rewrite Hp1, Hp2; cbn [negb andb]; rewrite Hp3.
  rewrite escapePathname_app.
  change (Url.escapePathname "rest/api/2") with "rest/api/2".
  destruct (truthy port).
  - rewrite Hhost. change (negb _ && negb _) with true. cbv iota.
    f_equal. rewrite !append_assoc'. reflexivity.
  - rewrite Hh.
    change (negb _ && negb _) with true. cbv iota.
    f_equal. rewrite !append_assoc'. reflexivity.
Qed.

End Formatting.

(** What [buildURL] reads from a constructed client. *)
Lemma JiraClient_connection config this :
  JiraClient config = Return this ->
  get this "host" = get config "host"
  /\ truthy (get this "host") = true
  /\ get this "protocol"
     = (if truthy (get config "protocol") then get config "protocol" else VStr "https")
  /\ get this "port" = get config "port"
  /\ get this "version" = VNum 2.
Proof.
  intros H.
  apply JiraClient_constructed in H as [Hh [(o & _ & _ & ->) | (_ & _ & _ & ->)]].
  - unfold oauthClient. simpl_get.
    rewrite connection_host, connection_protocol, connection_port, connection_version.
    auto.
  - unfold basicAuthClient. simpl_get.
    rewrite connection_host, connection_protocol, connection_port, connection_version.
    auto.
Qed.

(** C2, as the code has it.  On a constructed client whose protocol is one
    of http, https, ftp, gopher, file, ws, wss, whose host is a string
    without a colon and whose port is absent, a string or a safe integer,
    [buildURL(path)] is [decodeURIComponent] of
    [<protocol>://<host>[:<port>]/rest/api/2<path>]: the path follows the
    version with no separator, percent-escapes are decoded, and a string
    that does not decode makes the call throw. *)
Theorem buildURL_shape (config this : gmap string value) (path protocol host : string) :
  JiraClient config = Return this ->
  get this "protocol" = VStr protocol ->
  In protocol slashedNames ->
  get this "host" = VStr host ->
  Url.includes ":" host = false ->
  plainPort (get this "port") = true ->
  buildURL this path
  = Uri.decodeURIComponent (urlShape protocol host (get this "port") path).
Proof.
  intros H Hp Hin Hhost Hc _.
  destruct (JiraClient_connection _ _ H) as (_ & Ht & _ & _ & Hv).
  unfold buildURL. rewrite Hv, Hp, Hhost.
  rewrite Hhost in Ht.
  rewrite (format_shape _ _ _ _ Hin Ht Hc).
  cbn [mbind outcome_bind].
  unfold Uri.decodeURIComponent, urlShape.
  apply Decode_escapePathname.
Qed.

(** With a leading slash in the path, the URL of the spec's example. *)
Lemma buildURL_shape_witness :
  buildURL (oauthClient oauthConfigEx oauthRecord) "/issue/TEST-1"
  = Return "https://example.com/rest/api/2/issue/TEST-1".
Proof.
  rewrite (buildURL_shape oauthConfigEx (oauthClient oauthConfigEx oauthRecord)
             "/issue/TEST-1" "https" "example.com");
    [reflexivity | reflexivity | reflexivity | | reflexivity | reflexivity | reflexivity].
  right; left; reflexivity.
Defined.

(** C2 as stated fails on its own example: [buildURL("issue/TEST-1")] has no
    slash between the version and the path. *)
Lemma buildURL_issue_without_slash :
  JiraClient oauthConfigEx = Return (oauthClient oauthConfigEx oauthRecord)
  /\ buildURL (oauthClient oauthConfigEx oauthRecord) "issue/TEST-1"
     = Return "https://example.com/rest/api/2issue/TEST-1"
  /\ buildURL (oauthClient oauthConfigEx oauthRecord) "issue/TEST-1"
     <> Return "https://example.com/rest/api/2/issue/TEST-1".
Proof.
  split; [reflexivity |].
  split; [reflexivity |].
  intros H. vm_compute in H. discriminate H.
Qed.

(** *** Particular cases *)

(** A string without [%] decodes to itself. *)
Lemma decodeURIComponent_plain {M} (s : string) :
  Url.includes "%" s = false ->
  Uri.decodeURIComponent (M:=M) s = Return s.
Proof.
  unfold Uri.decodeURIComponent.
  induction s as [| c s IH]; cbn [Url.includes]; [reflexivity |].
  destruct (Ascii.eqb_spec c "%") as [-> | Hc]; [discriminate |].
  cbn [orb]. intros H. rewrite Decode_plain, (IH H) by assumption. reflexivity.
Qed.

(** Without any [%] in protocol, host, port and path, [buildURL] returns the
    string of the URL shape itself. *)
Lemma buildURL_plain (config this : gmap string value) (path protocol host : string) :
  JiraClient config = Return this ->
  get this "protocol" = VStr protocol ->
  In protocol slashedNames ->
  get this "host" = VStr host ->
  Url.includes ":" host = false ->
  plainPort (get this "port") = true ->
  Url.includes "%" (urlShape protocol host (get this "port") path) = false ->
  buildURL this path = Return (urlShape protocol host (get this "port") path).
Proof.
  intros H Hp Hin Hhost Hc _ Hplain.
  destruct (JiraClient_connection _ _ H) as (_ & Ht & _ & _ & Hv).
  unfold buildURL. rewrite Hv, Hp, Hhost.
  rewrite Hhost in Ht.
  rewrite (format_shape _ _ _ _ Hin Ht Hc).
  cbn [mbind outcome_bind].
  unfold Uri.decodeURIComponent. rewrite Decode_escapePathname.
  apply decodeURIComponent_plain. exact Hplain.
Qed.

(** A port is written after the host. *)
Example buildURL_with_port :
  buildURL (oauthClient (<["port" := VNum 8080]> oauthConfigEx) oauthRecord) "/issue/TEST-1"
  = Return "https://example.com:8080/rest/api/2/issue/TEST-1".
Proof. reflexivity. Qed.

(** [%20] in the path comes out as a space, and [?] stays as it is. *)
Example buildURL_decodes_escapes :
  buildURL (oauthClient oauthConfigEx oauthRecord) "/search?jql=summary%20~%20bug"
  = Return "https://example.com/rest/api/2/search?jql=summary ~ bug".
Proof. reflexivity. Qed.

(** A path that does not decode makes [buildURL] throw. *)
Example buildURL_malformed_escape :
  buildURL (oauthClient oauthConfigEx oauthRecord) "/search?jql=100%"
  = Throw URIError.
Proof. reflexivity. Qed.

(** A protocol outside the slashed ones is written without [//], and the
    pathname without its leading slash. *)
Example buildURL_other_protocol :
  buildURL (oauthClient (<["protocol" := VStr "jira"]> oauthConfigEx) oauthRecord)
    "/issue/TEST-1"
  = Return "jira:example.comrest/api/2/issue/TEST-1".
Proof. reflexivity. Qed.

(* ===================================================================== *)
(** ** Further properties of the constructor *)
(* ===================================================================== *)

(** X1.  Without OAuth credentials, a configuration that has a host and a
    [basic_auth] record lacking [username] or [password] is rejected with
    the error of the first missing field, [username] before [password]. *)
Theorem basic_auth_first_missing_field (config : gmap string value) (e : errorStrings) :
  truthy (get config "host") = true ->
  truthy (get config "oauth") = false ->
  truthy (get config "basic_auth") = true ->
  firstMissing basicAuthFields (get config "basic_auth") = Some e ->
  JiraClient config = Throw (Error e).
Proof.
  intros Hh Ho Hb Hm. rewrite JiraClient_basic_auth by assumption.
  rewrite Hm. reflexivity.
Qed.

Lemma basic_auth_first_missing_field_witness :
  JiraClient noUsernameConfig = Throw (Error NO_USERNAME_ERROR)
  /\ JiraClient emptyPasswordConfig = Throw (Error NO_PASSWORD_ERROR).
Proof.
  split.
  - apply (basic_auth_first_missing_field noUsernameConfig NO_USERNAME_ERROR); reflexivity.
  - apply (basic_auth_first_missing_field emptyPasswordConfig NO_PASSWORD_ERROR); reflexivity.
Defined.

(** X2.  A constructed client stores exactly one kind of authentication:
    an OAuth configuration and no [basic_auth] property, or basic-auth
    credentials and no [oauthConfig] property. *)
Theorem one_authentication_mode (config this : gmap string value) :
  JiraClient config = Return this ->
  (isObject (get this "oauthConfig") = true /\ this !! "basic_auth" = None)
  \/ (this !! "oauthConfig" = None /\ isObject (get this "basic_auth") = true).
Proof.
  intros H.
  apply JiraClient_constructed in H as [_ [(o & _ & _ & ->) | (_ & _ & _ & ->)]].
  - left. rewrite oauthClient_oauthConfig. split; [reflexivity |].
    apply oauthClient_no_basic_auth.
  - right. rewrite basicAuthClient_basic_auth. split; [| reflexivity].
    apply basicAuthClient_no_oauthConfig.
Qed.

Lemma one_authentication_mode_witness :
  ((isObject (get (oauthClient oauthConfigEx oauthRecord) "oauthConfig") = true
    /\ oauthClient oauthConfigEx oauthRecord !! "basic_auth" = None)
   \/ (oauthClient oauthConfigEx oauthRecord !! "oauthConfig" = None
       /\ isObject (get (oauthClient oauthConfigEx oauthRecord) "basic_auth") = true))
  /\ oauthClient oauthConfigEx oauthRecord !! "basic_auth" = None.
Proof.
  split; [| reflexivity].
  apply (one_authentication_mode oauthConfigEx (oauthClient oauthConfigEx oauthRecord)).
  reflexivity.
Defined.

(** X3.  The constructor returns a client exactly for the configurations
    that have a host and either an [oauth] record with all four fields or,
    [oauth] being absent, a [basic_auth] record with both fields. *)
Theorem construction_succeeds_iff (config : gmap string value) :
  (exists this, JiraClient config = Return this)
  <-> truthy (get config "host") = true
      /\ ((truthy (get config "oauth") = true
           /\ firstMissing oauthFields (get config "oauth") = None)
          \/ (truthy (get config "oauth") = false
              /\ truthy (get config "basic_auth") = true
              /\ firstMissing basicAuthFields (get config "basic_auth") = None)).
Proof.
  split.
  - intros [this H].
    apply JiraClient_constructed in H as [Hh [(o & Ho & Hm & _) | (Ho & Hb & Hm & _)]].
    + split; [assumption |]. left. rewrite Ho. split; [reflexivity | assumption].
    + split; [assumption |]. right. auto.
  - intros [Hh [[Ho Hm] | (Ho & Hb & Hm)]].
    + rewrite JiraClient_oauth, Hm by assumption.
      destruct (firstMissing_oauth_object _ Hm) as [o ->]. eauto.
    + rewrite JiraClient_basic_auth, Hm by assumption. eauto.
Qed.

(** X4.  A constructed client holds the host and the port of the
    configuration as they were given, the protocol of the configuration or
    ["https"] when that is missing, and version [2] whatever the
    configuration says about a version. *)
Theorem connection_settings_stored (config this : gmap string value) :
  JiraClient config = Return this ->
  get this "host" = get config "host"
  /\ get this "port" = get config "port"
  /\ (truthy (get config "protocol") = true -> get this "protocol" = get config "protocol")
  /\ (truthy (get config "protocol") = false -> get this "protocol" = VStr "https")
  /\ get this "version" = VNum 2.
Proof.
  intros H. destruct (JiraClient_connection _ _ H) as (Hh & _ & Hp & Hport & Hv).
  repeat split; try assumption.
  - intros Ht. rewrite Hp, Ht. reflexivity.
  - intros Ht. rewrite Hp, Ht. reflexivity.
Qed.

Lemma connection_settings_stored_witness :
  let this := basicAuthClient versionedConfig (VStr "alice") (VStr "s3cret") in
  get versionedConfig "version" = VNum 3
  /\ get versionedConfig "protocol" = VUndefined
  /\ get this "host" = VStr "example.com"
  /\ get this "port" = VNum 8080
  /\ get this "protocol" = VStr "https"
  /\ get this "version" = VNum 2.
Proof.
  cbv zeta. split; [reflexivity |]. split; [reflexivity |].
  assert (H : JiraClient versionedConfig
              = Return (basicAuthClient versionedConfig (VStr "alice") (VStr "s3cret")))
    by (vm_compute; reflexivity).
  destruct (connection_settings_stored versionedConfig _ H) as (Hh & Hport & _ & Hp & Hv).
  rewrite Hh, Hport, Hv, (Hp eq_refl). repeat split.
Defined.

(** X5.  The stored signing configuration is the [oauth] record of the
    configuration with [signature_method] set: every other property,
    the four credentials included, is the one that was supplied. *)
Theorem oauth_record_kept (config this : gmap string value) (k : string) :
  truthy (get config "oauth") = true ->
  JiraClient config = Return this ->
  k <> "signature_method" ->
  field (get this "oauthConfig") k = field (get config "oauth") k.
Proof.
  intros Ho H Hk.
  apply JiraClient_constructed in H as [_ [(o & Hv & _ & ->) | (Ho' & _)]];
    [| congruence].
  rewrite oauthClient_oauthConfig, Hv. cbn [field].
  apply get_insert_ne. congruence.
Qed.

Lemma oauth_record_kept_witness :
  field (get (oauthClient oauthConfigEx oauthRecord) "oauthConfig") "private_key"
  = VStr "pk".
Proof.
  rewrite (oauth_record_kept oauthConfigEx (oauthClient oauthConfigEx oauthRecord)
             "private_key"); [reflexivity | reflexivity | reflexivity | discriminate].
Defined.

(** X6.  Credentials that are truthy without being an object (a flag, a
    string) are read as lacking their first field: the construction fails
    with the consumer-key error for such an [oauth], and with the username
    error for such a [basic_auth]. *)
Theorem credentials_not_an_object (config : gmap string value) :
  truthy (get config "host") = true ->
  (truthy (get config "oauth") = true ->
   isObject (get config "oauth") = false ->
   JiraClient config = Throw (Error NO_CONSUMER_KEY_ERROR))
  /\ (truthy (get config "oauth") = false ->
      truthy (get config "basic_auth") = true ->
      isObject (get config "basic_auth") = false ->
      JiraClient config = Throw (Error NO_USERNAME_ERROR)).
Proof.
  intros Hh. split.
  - intros Ho Hn. rewrite JiraClient_oauth by assumption.
    destruct (get config "oauth"); try discriminate; reflexivity.
  - intros Ho Hb Hn. rewrite JiraClient_basic_auth by assumption.
    destruct (get config "basic_auth"); try discriminate; reflexivity.
Qed.

Lemma credentials_not_an_object_witness :
  JiraClient oauthFlagConfig = Throw (Error NO_CONSUMER_KEY_ERROR)
  /\ JiraClient basicStringConfig = Throw (Error NO_USERNAME_ERROR).
Proof.
  split.
  - apply (proj1 (credentials_not_an_object oauthFlagConfig eq_refl)); reflexivity.
  - apply (proj2 (credentials_not_an_object basicStringConfig eq_refl)); reflexivity.
Defined.

(* ===================================================================== *)
(** ** Further properties of [makeRequest] *)
(* ===================================================================== *)

(** X7.  On a client that stores an OAuth configuration or basic-auth
    credentials, [makeRequest] hands the transport options that differ
    from the caller's at most in the one property it attaches: every
    property other than [oauth] and [auth] is as the caller set it, and
    the request is the only event. *)
Theorem makeRequest_keeps_other_options (this options : gmap string value) :
  truthy (get this "oauthConfig") = true \/ truthy (get this "basic_auth") = true ->
  exists options',
    makeRequest this options = [Request options']
    /\ forall k, k <> "oauth" -> k <> "auth" -> options' !! k = options !! k.
Proof.
  intros H. unfold makeRequest.
  destruct (truthy (get this "oauthConfig")).
  - eexists. split; [reflexivity |].
    intros k Ho _. apply lookup_insert_ne. congruence.
  - destruct H as [H | H]; [discriminate |]. rewrite H.
    eexists. split; [reflexivity |].
    intros k _ Ha. apply lookup_insert_ne. congruence.
Qed.

Lemma makeRequest_keeps_other_options_witness :
  exists options',
    makeRequest (oauthClient oauthConfigEx oauthRecord) requestOptions = [Request options']
    /\ forall k, k <> "oauth" -> k <> "auth" -> options' !! k = requestOptions !! k.
Proof.
  apply (makeRequest_keeps_other_options (oauthClient oauthConfigEx oauthRecord)
           requestOptions).
  left. reflexivity.
Defined.

(** X8.  On a constructed client [makeRequest] never calls the callback
    itself: the only event is the request, and its options carry an [oauth]
    or an [auth] object. *)
Theorem constructed_client_dispatches_authenticated
  (config this options : gmap string value) :
  JiraClient config = Return this ->
  exists options',
    makeRequest this options = [Request options']
    /\ (isObject (get options' "oauth") = true \/ isObject (get options' "auth") = true).
Proof.
  intros H.
  apply JiraClient_constructed in H as [_ [(o & _ & _ & ->) | (_ & _ & _ & ->)]].
  - eexists. split.
    + apply makeRequest_oauth. rewrite oauthClient_oauthConfig. reflexivity.
    + left. rewrite get_insert_eq, oauthClient_oauthConfig. reflexivity.
  - eexists. split.
    + apply makeRequest_basic_auth.
      * unfold get. rewrite basicAuthClient_no_oauthConfig. reflexivity.
      * rewrite basicAuthClient_basic_auth. reflexivity.
    + right. rewrite get_insert_eq, basicAuthClient_basic_auth. reflexivity.
Qed.

Lemma constructed_client_dispatches_authenticated_witness :
  exists options',
    makeRequest (basicAuthClient basicConfigEx (VStr "alice") (VStr "s3cret")) requestOptions
    = [Request options']
    /\ (isObject (get options' "oauth") = true \/ isObject (get options' "auth") = true).
Proof.
  apply (constructed_client_dispatches_authenticated basicConfigEx
           (basicAuthClient basicConfigEx (VStr "alice") (VStr "s3cret")) requestOptions).
  reflexivity.
Defined.

(** X9.  The options that one call of [makeRequest] hands to the transport
    are handed over unchanged by a second call with them: attaching the
    authentication twice is attaching it once. *)
Theorem makeRequest_again (this options options' : gmap string value) :
  requests (makeRequest this options) = [options'] ->
  requests (makeRequest this options') = [options'].
Proof.
  unfold makeRequest.
  destruct (truthy (get this "oauthConfig")).
  - intros [= <-]. cbn [app requests]. rewrite insert_insert_eq. reflexivity.
  - destruct (truthy (get this "basic_auth")).
    + intros [= <-]. cbn [app requests]. rewrite insert_insert_eq. reflexivity.
    + intros [= <-]. reflexivity.
Qed.

Lemma makeRequest_again_witness :
  requests (makeRequest (oauthClient oauthConfigEx oauthRecord)
              (<["oauth" := VObj (<["signature_method" := VStr "RSA-SHA1"]> oauthRecord)]>
                 requestOptions))
  = [<["oauth" := VObj (<["signature_method" := VStr "RSA-SHA1"]> oauthRecord)]>
       requestOptions].
Proof.
  apply (makeRequest_again (oauthClient oauthConfigEx oauthRecord) requestOptions).
  rewrite makeRequest_oauth by (rewrite oauthClient_oauthConfig; reflexivity).
  rewrite oauthClient_oauthConfig. reflexivity.
Defined.

(* ===================================================================== *)
(** ** Further properties of [buildURL] *)
(* ===================================================================== *)

(** A prefix without [%] is copied by the decoding. *)
Lemma Decode_plain_prefix {M} (pre s : string) :
  Url.includes "%" pre = false ->
  Uri.Decode (M:=M) None (pre +:+ s)
  = (R ← Uri.Decode None s; Return (pre +:+ R)).
Proof.
  induction pre as [| c pre IH]; cbn [Url.includes].
  - intros _. rewrite append_Empty. destruct (Uri.Decode None s); reflexivity.
  - destruct (Ascii.eqb_spec c "%") as [-> | Hc]; [discriminate |].
    cbn [orb]. intros H.
    rewrite append_String, Decode_plain, (IH H) by assumption.
    destruct (Uri.Decode None s); reflexivity.
Qed.

(** X10.  Clients constructed from configurations with the same host, port
    and protocol build the same URLs, whichever authentication each one
    was given. *)
Theorem buildURL_ignores_authentication
  (config config' this this' : gmap string value) (path : string) :
  JiraClient config = Return this ->
  JiraClient config' = Return this' ->
  get config "host" = get config' "host" ->
  get config "port" = get config' "port" ->
  get config "protocol" = get config' "protocol" ->
  buildURL this path = buildURL this' path.
Proof.
  intros H H' Hh Hport Hp.
  destruct (JiraClient_connection _ _ H) as (D1 & _ & D2 & D3 & D4).
  destruct (JiraClient_connection _ _ H') as (E1 & _ & E2 & E3 & E4).
  unfold buildURL. rewrite D1, D2, D3, D4, E1, E2, E3, E4.
  rewrite Hh, Hport, Hp. reflexivity.
Qed.

Lemma buildURL_ignores_authentication_witness :
  buildURL (oauthClient oauthConfigEx oauthRecord) "/issue/TEST-1"
  = buildURL (basicAuthClient basicConfigEx (VStr "alice") (VStr "s3cret")) "/issue/TEST-1".
Proof.
  apply (buildURL_ignores_authentication oauthConfigEx basicConfigEx); reflexivity.
Defined.

(** X11.  Where the port is absent, a string or a safe integer, and
    protocol, host and port hold no [%], [buildURL] leaves them as they are
    and decodes the path alone: the result is the root followed by the
    decoded path, and the call throws exactly when the path does not
    decode. *)
Theorem buildURL_decodes_path_only
  (config this : gmap string value) (path protocol host : string) :
  JiraClient config = Return this ->
  get this "protocol" = VStr protocol ->
  In protocol slashedNames ->
  get this "host" = VStr host ->
  Url.includes ":" host = false ->
  plainPort (get this "port") = true ->
  Url.includes "%" (apiRoot protocol host (get this "port")) = false ->
  buildURL this path
  = (decoded ← Uri.decodeURIComponent path;
     Return (apiRoot protocol host (get this "port") +:+ decoded)).
Proof.
  intros H Hp Hin Hhost Hc _ Hplain.
  destruct (JiraClient_connection _ _ H) as (_ & Ht & _ & _ & Hv).
  unfold buildURL. rewrite Hv, Hp, Hhost.
  rewrite Hhost in Ht.
  rewrite (format_shape _ _ _ _ Hin Ht Hc).
  cbn [mbind outcome_bind].
  unfold Uri.decodeURIComponent.
  rewrite Decode_escapePathname. apply Decode_plain_prefix. exact Hplain.
Qed.

Lemma buildURL_decodes_path_only_witness :
  buildURL (oauthClient oauthConfigEx oauthRecord) "/search?jql=project%3DTEST#top"
  = Return "https://example.com/rest/api/2/search?jql=project=TEST#top"
  /\ buildURL (oauthClient oauthConfigEx oauthRecord) "/search?jql=%E0%A4%A"
     = Throw URIError.
Proof.
  split.
  - rewrite (buildURL_decodes_path_only oauthConfigEx
               (oauthClient oauthConfigEx oauthRecord) _ "https" "example.com");
      [reflexivity | reflexivity | reflexivity | | reflexivity | reflexivity | reflexivity | reflexivity].
    right; left; reflexivity.
  - rewrite (buildURL_decodes_path_only oauthConfigEx
               (oauthClient oauthConfigEx oauthRecord) _ "https" "example.com");
      [reflexivity | reflexivity | reflexivity | | reflexivity | reflexivity | reflexivity | reflexivity].
    right; left; reflexivity.
Defined.
